(** * Rule-based post classifier: normalizer, filter stage, theme stage

    Shallow embedding of [backend/insights/unwrap.py] (the broader rule
    set) and [backend/scraper/unwrap.py] (the narrower rule set that
    [backend/scraper/main.py] imports).

    Python [str] values are modelled as [string]: sequences of 8-bit
    characters read as the code points 0..255 (ASCII and Latin-1).  On
    that range [str.lower] acts character by character and stays inside
    the range, and the regular-expression class [\s] is a fixed set of
    eleven code points; both are written out below. *)

From Stdlib Require Import Bool List Arith Lia ZArith Ascii String.
Import ListNotations.
Open Scope string_scope.

(** ** Python string primitives *)

Module PyStr.

Definition between (lo hi n : nat) : bool := Nat.leb lo n && Nat.leb n hi.

(** [str.isspace] on one character, which is what the class [\s] of a
    [str] pattern matches: TAB..CR, FS..US, SPACE, NEL and NBSP. *)
Definition isspace (c : ascii) : bool :=
  let n := nat_of_ascii c in
  between 9 13 n || between 28 32 n || Nat.eqb n 133 || Nat.eqb n 160.

(** [str.lower] on one character: A..Z and the Latin-1 capitals
    U+00C0..U+00DE (without the multiplication sign U+00D7) move up by
    32; everything else is left alone. *)
Definition lower_char (c : ascii) : ascii :=
  let n := nat_of_ascii c in
  if between 65 90 n || (between 192 222 n && negb (Nat.eqb n 215))
  then ascii_of_nat (n + 32)
  else c.

(** [text.lower()] *)
Fixpoint lower (s : string) : string :=
  match s with
  | EmptyString => EmptyString
  | String c s' => String (lower_char c) (lower s')
  end.

(** [re.sub(r"\s+", " ", text)]: the scan goes left to right; a match
    starts at the first whitespace character met outside a match and,
    [+] being greedy, runs to the end of the whitespace run; the whole
    match is replaced by one space.  [in_match] says whether the
    previous character belonged to a match already replaced. *)
Fixpoint sub_ws_from (in_match : bool) (s : string) : string :=
  match s with
  | EmptyString => EmptyString
  | String c s' =>
      if isspace c
      then if in_match then sub_ws_from true s'
           else String " " (sub_ws_from true s')
      else String c (sub_ws_from false s')
  end.

Definition sub_ws (s : string) : string := sub_ws_from false s.

(** [t.startswith(sub)] *)
Fixpoint startswith (sub t : string) : bool :=
  match sub, t with
  | EmptyString, _ => true
  | String _ _, EmptyString => false
  | String a sub', String b t' => Ascii.eqb a b && startswith sub' t'
  end.

(** [sub in t]: [sub] occurs at some offset of [t]. *)
Fixpoint contains (sub t : string) : bool :=
  startswith sub t ||
  match t with
  | EmptyString => false
  | String _ t' => contains sub t'
  end.

(** [any(k in t for k in ks)] *)
Definition any_in (ks : list string) (t : string) : bool :=
  existsb (fun k => contains k t) ks.

(** A [for] loop whose body may leave the loop with a result ([return]
    inside the loop, or an assignment followed by [break]); [None] means
    the loop ran to its end. *)
Fixpoint for_each {A R : Type} (xs : list A) (body : A -> option R)
  : option R :=
  match xs with
  | [] => None
  | x :: xs' =>
      match body x with
      | Some r => Some r
      | None => for_each xs' body
      end
  end.

(** Mathematical substring relation, the reading of "contains ... as a
    substring". *)
Definition Substring (sub t : string) : Prop :=
  exists pre suf, t = pre ++ sub ++ suf.

End PyStr.

Import PyStr.

(** ** Data model and text utilities (the same text in both files) *)

Record Post : Type := mkPost {
  subreddit : string;
  title : string;
  selftext : string;
  score : Z;
  num_comments : Z;
  url : string
}.

(** [normalize]: [not text] holds for the empty string. *)
Definition normalize (text : string) : string :=
  match text with
  | EmptyString => ""
  | _ => sub_ws (lower text)
  end.

(** The same body when the argument is absent: [not None] holds too. *)
Definition normalize_dyn (text : option string) : string :=
  match text with
  | None => ""
  | Some s => normalize s
  end.

(** The five labels [assign_theme] can return, and the text of each. *)
Inductive Theme : Type :=
  | WiringAndPower
  | Communication
  | AnalogAndSensors
  | BuildCompileErrors
  | GeneralBeginnerHelp.

Definition theme_label (th : Theme) : string :=
  match th with
  | WiringAndPower => "Wiring & Power"
  | Communication => "Communication"
  | AnalogAndSensors => "Analog & Sensors"
  | BuildCompileErrors => "Build / Compile Errors"
  | GeneralBeginnerHelp => "General Beginner Help"
  end.

(** The text both stages look at. *)
Definition post_text (post : Post) : string :=
  normalize (title post ++ " " ++ selftext post).

(** The keyword groups of the theme stage. *)
Definition POWER_GROUP : list string :=
  ["power"; "voltage"; "battery"; "5v"; "3.3v"].
Definition COMM_GROUP : list string :=
  ["i2c"; "spi"; "uart"; "serial"; "can"].
Definition BUILD_GROUP : list string :=
  ["error"; "compile"; "upload"; "flash"].

(** ** backend/insights/unwrap.py *)

Module Insights.

Definition KEYWORDS : list string :=
  ["arduino"; "esp32"; "stm32"; "microcontroller"; "embedded"; "gpio";
   "i2c"; "spi"; "uart"; "serial"; "firmware"; "sensor"; "adc"; "pwm";
   "breadboard"].

Definition BAD_PHRASES : list string :=
  ["i made"; "huge update"; "update to my"; "project update"; "showcase";
   "tutorial"; "built this"; "my journey"].

Definition HELP_SIGNALS : list string :=
  ["help"; "not working"; "doesn't work"; "doesnt work"; "cant"; "can't";
   "error"; "problem"; "beginner"; "newbie"; "how do i"; "why";
   "confused"; "issue"; "fail"; "unable"].

Definition ANALOG_GROUP : list string :=
  ["sensor"; "adc"; "analog"; "voltage divider"].

(** The last loop of [matches_keywords]. *)
Definition keyword_pass (t : string) : bool :=
  match for_each KEYWORDS
          (fun keyword => if contains keyword t then Some true else None)
  with
  | Some r => r
  | None => false
  end.

Definition matches_keywords (post : Post) : bool :=
  let t := normalize (title post ++ " " ++ selftext post) in
  match for_each BAD_PHRASES
          (fun phrase => if contains phrase t then Some false else None)
  with
  | Some r => r
  | None =>
      let has_help_signal :=
        match for_each HELP_SIGNALS
                (fun signal => if contains signal t then Some true else None)
        with
        | Some r => r
        | None => false
        end in
      if negb has_help_signal then false
      else keyword_pass t
  end.

Definition assign_theme (post : Post) : string :=
  let t := normalize (title post ++ " " ++ selftext post) in
  if any_in POWER_GROUP t then "Wiring & Power"
  else if any_in COMM_GROUP t then "Communication"
  else if any_in ANALOG_GROUP t then "Analog & Sensors"
  else if any_in BUILD_GROUP t then "Build / Compile Errors"
  else "General Beginner Help".

End Insights.

(** ** backend/scraper/unwrap.py *)

Module Scraper.

Definition BAD_PHRASES : list string :=
  ["i made"; "huge update"; "showcase"; "tutorial"; "built this"].

Definition HELP_SIGNALS : list string :=
  ["help"; "not working"; "error"; "problem"; "beginner"; "issue"].

Definition KEYWORDS : list string :=
  ["arduino"; "esp32"; "stm32"; "microcontroller"; "embedded"; "uart";
   "i2c"; "spi"].

Definition ANALOG_GROUP : list string := ["sensor"; "adc"; "analog"].

Definition matches_keywords (post : Post) : bool :=
  let t := normalize (title post ++ " " ++ selftext post) in
  if any_in BAD_PHRASES t then false
  else
    let has_help_signal := any_in HELP_SIGNALS t in
    if negb has_help_signal then false
    else any_in KEYWORDS t.

Definition assign_theme (post : Post) : string :=
  let t := normalize (title post ++ " " ++ selftext post) in
  if any_in POWER_GROUP t then "Wiring & Power"
  else if any_in COMM_GROUP t then "Communication"
  else if any_in BUILD_GROUP t then "Build / Compile Errors"
  else if any_in ANALOG_GROUP t then "Analog & Sensors"
  else "General Beginner Help".

End Scraper.

(** ** Reading of the normalizer contract *)

(** What the spec says of [normalize], written independently of the
    scan in [sub_ws_from]: cut the text into its maximal runs of
    whitespace and of other characters, then write one space for each
    whitespace run and every other run as it is. *)
Module NormalizeSpec.

(** The runs of [s], each with the flag "is a whitespace run". *)
Fixpoint runs (s : string) : list (bool * string) :=
  match s with
  | EmptyString => []
  | String c s' =>
      match runs s' with
      | (b, r) :: rest =>
          if Bool.eqb b (isspace c) then (b, String c r) :: rest
          else (isspace c, String c "") :: (b, r) :: rest
      | [] => [(isspace c, String c "")]
      end
  end.

Definition render (run : bool * string) : string :=
  if fst run then " " else snd run.

Fixpoint concat (l : list string) : string :=
  match l with
  | [] => ""
  | x :: l' => x ++ concat l'
  end.

Definition collapse_runs (s : string) : string := concat (map render (runs s)).

(** Every character of [s] has whitespace status [b]. *)
Fixpoint uniform (b : bool) (s : string) : bool :=
  match s with
  | EmptyString => true
  | String c s' => Bool.eqb (isspace c) b && uniform b s'
  end.

(** Neighbouring runs differ in their flag, so no run can be extended. *)
Fixpoint alternating (l : list (bool * string)) : bool :=
  match l with
  | [] => true
  | (b, _) :: l' =>
      match l' with
      | [] => true
      | (b', _) :: _ => negb (Bool.eqb b b') && alternating l'
      end
  end.

Definition head_is_space (s : string) : bool :=
  match s with
  | EmptyString => false
  | String c _ => isspace c
  end.

Fixpoint last_is_space (s : string) : bool :=
  match s with
  | EmptyString => false
  | String c EmptyString => isspace c
  | String _ s' => last_is_space s'
  end.

(** The only whitespace left is the space character, and no whitespace
    character follows another. *)
Fixpoint collapsed (s : string) : bool :=
  match s with
  | EmptyString => true
  | String c s' =>
      (if isspace c then Ascii.eqb c " " && negb (head_is_space s') else true)
      && collapsed s'
  end.

Fixpoint all_ws (s : string) : bool :=
  match s with
  | EmptyString => true
  | String c s' => isspace c && all_ws s'
  end.

(** The whitespace-separated tokens of a text: its non-whitespace runs. *)
Definition words (s : string) : list string :=
  map snd (filter (fun run => negb (fst run)) (runs s)).

End NormalizeSpec.

Import NormalizeSpec.

(** ** backend/scraper/main.py *)

(** The two collaborators are taken as they are used.  The feed is a
    function [new_posts]: [new_posts sub n] is what iterating
    [reddit.subreddit(sub).new(limit=n)] yields.  The database is a state
    [DB] with one operation, [upsert]: it takes the table, the record and
    the conflict column and gives the next state and, when the call
    raises, the text of the exception.  What the program does to the
    outside is kept as a log of events in the order they happen. *)
Module Main.

(** The values a record sent to the database holds. *)
Inductive value : Type :=
  | VStr (s : string)
  | VInt (z : Z).

(** A Python [dict] with text keys, in insertion order. *)
Definition dict : Type := list (string * value).

Fixpoint dict_get (k : string) (d : dict) : option value :=
  match d with
  | [] => None
  | (k', v) :: d' => if String.eqb k k' then Some v else dict_get k d'
  end.

(** [d[k] = v]: an existing key keeps its place, a new one goes last. *)
Fixpoint dict_set (k : string) (v : value) (d : dict) : dict :=
  match d with
  | [] => [(k, v)]
  | (k', v') :: d' =>
      if String.eqb k k' then (k', v) :: d' else (k', v') :: dict_set k v d'
  end.

(** [dataclasses.asdict(post)] *)
Definition asdict (post : Post) : dict :=
  [("subreddit", VStr (subreddit post));
   ("title", VStr (title post));
   ("selftext", VStr (selftext post));
   ("score", VInt (score post));
   ("num_comments", VInt (num_comments post));
   ("url", VStr (url post))].

(** The attributes of a submission that [run_scraper] reads. *)
Record Submission : Type := mkSubmission {
  s_title : string;
  s_selftext : option string;
  s_score : Z;
  s_num_comments : Z;
  s_permalink : string
}.

(** [x or ""] *)
Definition or_empty (x : option string) : string :=
  match x with
  | None => ""
  | Some EmptyString => ""
  | Some s => s
  end.

(** [text[:n]] *)
Fixpoint take (n : nat) (text : string) : string :=
  match n, text with
  | O, _ => ""
  | S _, EmptyString => ""
  | S n', String c text' => String c (take n' text')
  end.

Inductive event : Type :=
  | Print (line : string)
  | Upsert (table : string) (record : dict) (on_conflict : string).

Definition target_subs : list string :=
  ["arduino"; "esp32"; "embedded"; "stm32"].

(** The [Post] built from a submission of [sub_name]. *)
Definition to_post (sub_name : string) (submission : Submission) : Post :=
  mkPost sub_name
         (s_title submission)
         (or_empty (s_selftext submission))
         (s_score submission)
         (s_num_comments submission)
         ("https://reddit.com" ++ s_permalink submission).

(** [post_data] as it is when handed to [upsert]. *)
Definition post_data (post : Post) : dict :=
  dict_set "theme" (VStr (Scraper.assign_theme post)) (asdict post).

Section Run.

Variable new_posts : string -> nat -> list Submission.
Variable DB : Type.
Variable upsert : DB -> string -> dict -> string -> DB * option string.

(** The body of the inner loop. *)
Definition handle (sub_name : string) (st : DB * list event)
           (submission : Submission) : DB * list event :=
  let post := to_post sub_name submission in
  if Scraper.matches_keywords post then
    let theme := Scraper.assign_theme post in
    let post_data := dict_set "theme" (VStr theme) (asdict post) in
    let (db, log) := st in
    let call := Upsert "reddit_posts" post_data "url" in
    match upsert db "reddit_posts" post_data "url" with
    | (db', None) =>
        (db', (log ++ [call;
                       Print ("Saved [" ++ theme ++ "]: "
                              ++ take 50 (title post) ++ "...")])%list)
    | (db', Some e) =>
        (db', (log ++ [call; Print ("Database Error: " ++ e)])%list)
    end
  else st.

(** The body of the outer loop. *)
Definition scrape_sub (st : DB * list event) (sub_name : string)
  : DB * list event :=
  fold_left (handle sub_name) (new_posts sub_name 50) st.

Definition run_scraper (db : DB) : DB * list event :=
  let start :=
    Print ("--- Starting scrape on " ++ String.concat ", " target_subs
           ++ " ---") in
  fold_left scrape_sub target_subs (db, [start]).

(** The script run as a program. *)
Definition main (db : DB) : DB * list event :=
  let (db', log) := run_scraper db in
  (db', (log ++ [Print "--- Scrape Complete ---"])%list).

End Run.

(** The line printed once [upsert] has returned or raised. *)
Definition report (post : Post) (err : option string) : string :=
  match err with
  | None => "Saved [" ++ Scraper.assign_theme post ++ "]: "
            ++ take 50 (title post) ++ "..."
  | Some e => "Database Error: " ++ e
  end.

(** What the loop body does with a post the filter accepts: the call,
    then the line. *)
Definition store {DB : Type}
           (upsert : DB -> string -> dict -> string -> DB * option string)
           (st : DB * list event) (post : Post) : DB * list event :=
  let r := upsert (fst st) "reddit_posts" (post_data post) "url" in
  (fst r,
   (snd st ++ [Upsert "reddit_posts" (post_data post) "url";
               Print (report post (snd r))])%list).

(** The records handed to [upsert], in order. *)
Fixpoint upserted (log : list event) : list dict :=
  match log with
  | [] => []
  | Upsert _ record _ :: log' => record :: upserted log'
  | Print _ :: log' => upserted log'
  end.

Fixpoint printed (log : list event) : list string :=
  match log with
  | [] => []
  | Print line :: log' => line :: printed log'
  | Upsert _ _ _ :: log' => printed log'
  end.

(** The posts one run looks at, in the order it builds them. *)
Definition candidates (new_posts : string -> nat -> list Submission)
  : list Post :=
  flat_map (fun sub_name => map (to_post sub_name) (new_posts sub_name 50))
           target_subs.

End Main.

(** ** backend/insights/unwrap.py: loading posts *)

(** [load_posts_from_csv] from the rows on: a row is the [dict] that
    [csv.DictReader] yields for one line, here with a text in every
    cell.  [py_int] stands for [int] applied to a text, [None] for the
    [ValueError] it raises; an exception leaves the function, so the
    result is [None] and no list is returned. *)
Module CsvLoad.

Definition row : Type := list (string * string).

Fixpoint row_lookup (k : string) (r : row) : option string :=
  match r with
  | [] => None
  | (k', v) :: r' => if String.eqb k k' then Some v else row_lookup k r'
  end.

Section Loader.

Variable py_int : string -> option Z.

(** [row.get(k, "")] *)
Definition get_text (k : string) (r : row) : string :=
  match row_lookup k r with
  | Some v => v
  | None => ""
  end.

(** [int(row.get(k, 0))]; [int(0)] is [0]. *)
Definition get_int (k : string) (r : row) : option Z :=
  match row_lookup k r with
  | Some v => py_int v
  | None => Some 0%Z
  end.

(** The [Post(...)] call of the loop body; arguments are evaluated in
    the order written. *)
Definition post_of_row (r : row) : option Post :=
  let subreddit := get_text "subreddit" r in
  let title := get_text "title" r in
  let selftext := get_text "selftext" r in
  match get_int "score" r with
  | None => None
  | Some score =>
      match get_int "num_comments" r with
      | None => None
      | Some num_comments =>
          Some (mkPost subreddit title selftext score num_comments
                       (get_text "url" r))
      end
  end.

(** The loop, with [posts] the list built so far. *)
Fixpoint load_loop (posts : list Post) (rows : list row)
  : option (list Post) :=
  match rows with
  | [] => Some posts
  | r :: rows' =>
      match post_of_row r with
      | Some post => load_loop (posts ++ [post])%list rows'
      | None => None
      end
  end.

Definition load_posts_from_csv (rows : list row) : option (list Post) :=
  load_loop [] rows.

End Loader.

End CsvLoad.

(** ** Sample feed, databases and rows *)

Module PipelineSamples.

Import Main.

Definition uart_submission : Submission :=
  mkSubmission "Help! My Arduino UART isn't working" None 5 2
               "/r/arduino/comments/a1/uart/".

Definition robot_submission : Submission :=
  mkSubmission "I made an Arduino robot, help needed" (Some "") 90 14
               "/r/arduino/comments/a2/robot/".

Definition brownout_submission : Submission :=
  mkSubmission "ESP32 error" (Some "Voltage drops on boot") 3 0
               "/r/arduino/comments/a3/esp32/".

(** A feed with three submissions in r/arduino and none elsewhere. *)
Definition sample_feed (sub_name : string) (limit : nat) : list Submission :=
  if String.eqb sub_name "arduino"
  then firstn limit [uart_submission; robot_submission; brownout_submission]
  else [].

(** A database that keeps every record it is sent and never raises. *)
Definition keep_all (db : list dict) (table : string) (record : dict)
           (on_conflict : string) : list dict * option string :=
  ((db ++ [record])%list, None).

(** A database that is down. *)
Definition down (db : unit) (table : string) (record : dict)
           (on_conflict : string) : unit * option string :=
  (tt, Some "connection refused").

(** A stand-in for [int] on texts made of decimal digits. *)
Fixpoint digits_value (acc : Z) (text : string) : option Z :=
  match text with
  | EmptyString => Some acc
  | String c text' =>
      let n := nat_of_ascii c in
      if between 48 57 n
      then digits_value (10 * acc + Z.of_nat (n - 48)) text'
      else None
  end.

Definition sample_int (text : string) : option Z :=
  match text with
  | EmptyString => None
  | _ => digits_value 0 text
  end.

Definition full_row : CsvLoad.row :=
  [("subreddit", "esp32"); ("title", "ESP32 error");
   ("selftext", "Voltage drops"); ("score", "12"); ("num_comments", "3");
   ("url", "https://reddit.com/r/esp32/1"); ("author", "someone")].

Definition bare_row : CsvLoad.row := [("title", "Help with UART")].


End PipelineSamples.

(** ** Sample posts *)

Module Samples.

(** A showcase post that also asks for help and names a keyword. *)
Definition showcase_post : Post :=
  mkPost "arduino" "I made an Arduino robot, help needed with wiring" ""
         12 3 "https://reddit.com/r/arduino/1".

(** Names a sensor and an error, no power or protocol word. *)
Definition sensor_error_post : Post :=
  mkPost "esp32" "Sensor error on boot" "Reading fails" 4 1
         "https://reddit.com/r/esp32/2".

Definition voltage_error_post : Post :=
  mkPost "stm32" "Voltage error" "ADC  reads	noise" 7 0
         "https://reddit.com/r/stm32/3".

(** Accepted by the filter, in none of the four keyword groups. *)
Definition fallback_post : Post :=
  mkPost "embedded"
         "Help, my microcontroller project has an issue, beginner here" ""
         1 0 "https://reddit.com/r/embedded/4".

Definition serialization_post : Post :=
  mkPost "embedded" "Help with JSON serialization" "" 2 5
         "https://reddit.com/r/embedded/5".

Definition divider_post : Post :=
  mkPost "arduino" "Voltage divider reads wrong" "Analog pin problem" 3 2
         "https://reddit.com/r/arduino/6".

Definition cant_post : Post :=
  mkPost "arduino" "I can't get my sensor sketch to compile" "" 9 4
         "https://reddit.com/r/arduino/7".

(** [cant_post] again, as another subreddit, score and link would carry it. *)
Definition cant_post_elsewhere : Post :=
  mkPost "esp32" "I can't get my sensor sketch to compile" "" (-2) 40
         "https://reddit.com/r/esp32/8".

(** Two posts that differ in letter case and in spacing only. *)
Definition shouting_post : Post :=
  mkPost "arduino" "HELP:  Arduino   UART" (String "009" "Not Working ") 1 1
         "https://reddit.com/r/arduino/9".

Definition quiet_post : Post :=
  mkPost "arduino" "help: arduino uart" " not   working  " 1 1
         "https://reddit.com/r/arduino/9".

Definition titled (t : string) : Post :=
  mkPost "arduino" t "" 0 0 "https://reddit.com/r/arduino/0".

End Samples.

Import Samples.

(** ** Substring tests *)

Section SubstringFacts.

Lemma startswith_iff (sub t : string) :
  startswith sub t = true <-> exists suf, t = sub ++ suf.
Proof.
  revert t; induction sub as [|a sub IH]; intros t; simpl.
  - split; [intros _; now exists t | reflexivity].
  - destruct t as [|b t].
    + split; [discriminate | intros [suf E]; discriminate].
    + rewrite andb_true_iff, Ascii.eqb_eq, IH. split.
      * intros [-> [suf ->]]. now exists suf.
      * intros [suf E]. injection E as -> ->. split; [reflexivity|now exists suf].
Qed.

Lemma contains_iff (sub t : string) :
  contains sub t = true <-> Substring sub t.
Proof.
  unfold Substring. induction t as [|b t IH].
  - simpl. rewrite orb_false_r, startswith_iff. split.
    + intros [suf E]. now exists "", suf.
    + intros [pre [suf E]]. destruct pre; [now exists suf | discriminate].
  - cbn [contains]. rewrite orb_true_iff, startswith_iff, IH. split.
    + intros [[suf E] | [pre [suf E]]].
      * now exists "", suf.
      * exists (String b pre), suf. simpl. now rewrite E.
    + intros [pre [suf E]]. destruct pre as [|c pre]; simpl in E.
      * left. now exists suf.
      * right. injection E as _ E. now exists pre, suf.
Qed.

Lemma contains_false_iff (sub t : string) :
  contains sub t = false <-> ~ Substring sub t.
Proof.
  rewrite <- contains_iff. destruct (contains sub t); split; congruence.
Qed.

Lemma string_app_assoc (a b c : string) : (a ++ b) ++ c = a ++ (b ++ c).
Proof. induction a as [|x a IH]; simpl; [reflexivity | now rewrite IH]. Qed.

Lemma Substring_refl (s : string) : Substring s s.
Proof.
  exists "", "". simpl. induction s as [|c s IH]; simpl; [reflexivity|].
  now rewrite <- IH.
Qed.

Lemma Substring_trans (a b c : string) :
  Substring a b -> Substring b c -> Substring a c.
Proof.
  intros [p1 [s1 ->]] [p2 [s2 ->]].
  exists (p2 ++ p1), (s1 ++ s2).
  now rewrite !string_app_assoc.
Qed.

Lemma any_in_iff (ks : list string) (t : string) :
  any_in ks t = true <-> exists k, In k ks /\ Substring k t.
Proof.
  unfold any_in. rewrite existsb_exists.
  split; intros [k [Hin Hk]]; exists k; split; auto; now apply contains_iff.
Qed.

Lemma any_in_false_iff (ks : list string) (t : string) :
  any_in ks t = false <-> forall k, In k ks -> ~ Substring k t.
Proof.
  split.
  - intros H k Hin Hk.
    assert (any_in ks t = true) by (apply any_in_iff; eauto). congruence.
  - intros H. destruct (any_in ks t) eqn:E; [|reflexivity].
    apply any_in_iff in E as [k [Hin Hk]]. now destruct (H k Hin).
Qed.

(** The loop with an early exit computes the same test as [any]. *)
Lemma for_each_any_in {R : Type} (r : R) (ks : list string) (t : string) :
  for_each ks (fun k => if contains k t then Some r else None)
  = if any_in ks t then Some r else None.
Proof.
  unfold any_in. induction ks as [|k ks IH]; simpl; [reflexivity|].
  destruct (contains k t); simpl; [reflexivity | exact IH].
Qed.

End SubstringFacts.

(** ** The normalizer *)

Section RunsFacts.

Lemma runs_concat (s : string) : concat (map snd (runs s)) = s.
Proof.
  induction s as [|c s IH]; simpl; [reflexivity|].
  destruct (runs s) as [|[b r] rest]; simpl in *.
  - now rewrite <- IH.
  - destruct (Bool.eqb b (isspace c)); simpl; now rewrite IH.
Qed.

Lemma runs_uniform (s : string) :
  Forall (fun run => snd run <> "" /\ uniform (fst run) (snd run) = true) (runs s).
Proof.
  induction s as [|c s IH]; simpl; [constructor|].
  destruct (runs s) as [|[b r] rest].
  - constructor; [|constructor]. simpl. split; [discriminate|].
    now rewrite eqb_reflx.
  - inversion IH as [|x l [Hne Hu] Hrest]; subst. simpl in *.
    destruct (Bool.eqb b (isspace c)) eqn:E.
    + constructor; [|assumption]. simpl. split; [discriminate|].
      apply eqb_prop in E. subst b. now rewrite eqb_reflx.
    + constructor; [|now constructor]. simpl. split; [discriminate|].
      now rewrite eqb_reflx.
Qed.

Lemma runs_alternating (s : string) : alternating (runs s) = true.
Proof.
  induction s as [|c s IH]; simpl; [reflexivity|].
  destruct (runs s) as [|[b r] rest]; [reflexivity|].
  destruct (Bool.eqb b (isspace c)) eqn:E.
  - exact IH.
  - change (negb (Bool.eqb (isspace c) b)
            && alternating ((b, r) :: rest) = true).
    rewrite IH, andb_true_r.
    destruct b, (isspace c); simpl in *; congruence.
Qed.

End RunsFacts.

Section CharFacts.

Local Ltac by_cases c :=
  destruct c as [[] [] [] [] [] [] [] []]; vm_compute; reflexivity.

Lemma isspace_lower_char (c : ascii) : isspace (lower_char c) = isspace c.
Proof. by_cases c. Qed.

Lemma lower_char_idem (c : ascii) : lower_char (lower_char c) = lower_char c.
Proof. by_cases c. Qed.

End CharFacts.

Section ScanFacts.

Lemma lower_idem (s : string) : lower (lower s) = lower s.
Proof.
  induction s as [|c s IH]; simpl; [reflexivity|].
  now rewrite lower_char_idem, IH.
Qed.

Lemma lower_sub_ws_from (b : bool) (s : string) :
  lower (sub_ws_from b s) = sub_ws_from b (lower s).
Proof.
  revert b; induction s as [|c s IH]; intros b; simpl; [reflexivity|].
  rewrite isspace_lower_char.
  destruct (isspace c); [destruct b|]; simpl; now rewrite ?IH.
Qed.

Lemma head_is_space_lower (s : string) :
  head_is_space (lower s) = head_is_space s.
Proof. destruct s; simpl; [reflexivity | apply isspace_lower_char]. Qed.

Lemma last_is_space_lower (s : string) :
  last_is_space (lower s) = last_is_space s.
Proof.
  induction s as [|c s IH]; [reflexivity|].
  destruct s as [|d s]; simpl in *; [apply isspace_lower_char | exact IH].
Qed.

Lemma normalize_unfold (s : string) : normalize s = sub_ws (lower s).
Proof. destruct s; reflexivity. Qed.

(** The flag of the first run is the status of the first character. *)
Lemma runs_head (s : string) :
  match runs s with
  | [] => s = ""
  | (b, _) :: _ => b = head_is_space s
  end.
Proof.
  destruct s as [|c s]; simpl; [reflexivity|].
  destruct (runs s) as [|[b r] rest]; [reflexivity|].
  destruct (Bool.eqb b (isspace c)) eqn:E; [|reflexivity].
  now apply eqb_prop in E.
Qed.

Lemma collapse_runs_cons (c : ascii) (s : string) :
  collapse_runs (String c s) =
  if isspace c
  then if head_is_space s then collapse_runs s
       else String " " (collapse_runs s)
  else String c (collapse_runs s).
Proof.
  unfold collapse_runs. simpl.
  pose proof (runs_head s) as Hh.
  pose proof (runs_uniform s) as Hu.
  destruct (runs s) as [|[b r] rest].
  - subst s. simpl. unfold render. simpl. now destruct (isspace c).
  - subst b. inversion Hu as [|x l [Hne Hun] _]; subst. simpl in Hne, Hun.
    destruct (isspace c) eqn:Ec, (head_is_space s) eqn:Eh; simpl;
      unfold render; simpl; try rewrite Ec; try reflexivity.
Qed.

(** The scan and the cutting into runs agree. *)
Lemma sub_ws_from_runs (s : string) :
  sub_ws_from false s = collapse_runs s
  /\ (head_is_space s = true ->
      String " " (sub_ws_from true s) = collapse_runs s)
  /\ (head_is_space s = false -> sub_ws_from true s = collapse_runs s).
Proof.
  induction s as [|c s (IH1 & IH2 & IH3)].
  - repeat split; try reflexivity. discriminate.
  - rewrite collapse_runs_cons. simpl.
    destruct (isspace c) eqn:Ec.
    + destruct (head_is_space s) eqn:Eh.
      * repeat split; intros; try discriminate; now apply IH2.
      * repeat split; intros; try discriminate; now rewrite IH3.
    + repeat split; intros; try discriminate; now rewrite IH1.
Qed.

Lemma sub_ws_from_head (s : string) :
  head_is_space (sub_ws_from false s) = head_is_space s
  /\ head_is_space (sub_ws_from true s) = false.
Proof.
  induction s as [|c s [IH1 IH2]]; simpl; [now split|].
  destruct (isspace c) eqn:Ec; simpl; rewrite ?Ec; now split.
Qed.

Lemma sub_ws_from_collapsed (b : bool) (s : string) :
  collapsed (sub_ws_from b s) = true.
Proof.
  revert b; induction s as [|c s IH]; intros b; simpl; [reflexivity|].
  destruct (isspace c) eqn:Ec.
  - destruct b; [apply IH|]. simpl.
    rewrite (proj2 (sub_ws_from_head s)). simpl. apply IH.
  - simpl. rewrite Ec. apply IH.
Qed.

(** A text already in collapsed form is left as it is by the scan. *)
Lemma sub_ws_from_fixed (s : string) :
  collapsed s = true ->
  sub_ws_from false s = s
  /\ (head_is_space s = false -> sub_ws_from true s = s).
Proof.
  induction s as [|c s IH]; simpl; [now split|].
  intros H. apply andb_true_iff in H as [Hc Hs].
  destruct (IH Hs) as [IH1 IH2].
  destruct (isspace c) eqn:Ec.
  - apply andb_true_iff in Hc as [Hsp Hh].
    apply Ascii.eqb_eq in Hsp. subst c.
    apply negb_true_iff in Hh.
    split; [now rewrite IH2 | discriminate].
  - split; intros; now rewrite IH1.
Qed.

Lemma sub_ws_from_empty (s : string) :
  sub_ws_from true s = "" <-> all_ws s = true.
Proof.
  induction s as [|c s IH]; simpl; [now split|].
  destruct (isspace c); simpl; [exact IH | split; discriminate].
Qed.

Lemma all_ws_last (s : string) :
  all_ws s = true -> s <> "" -> last_is_space s = true.
Proof.
  induction s as [|c s IH]; [congruence|].
  simpl. intros H _. apply andb_true_iff in H as [Hc Hs].
  destruct s as [|d s]; [exact Hc|]. apply IH; [exact Hs | discriminate].
Qed.

Lemma last_is_space_cons (c : ascii) (s : string) :
  s <> "" -> last_is_space (String c s) = last_is_space s.
Proof. destruct s; [congruence | reflexivity]. Qed.

Lemma sub_ws_from_nonempty (s : string) :
  s <> "" -> sub_ws_from false s <> "".
Proof.
  destruct s as [|c s]; [congruence|]. intros _. simpl.
  destruct (isspace c); discriminate.
Qed.

Lemma sub_ws_from_last (s : string) (b : bool) :
  last_is_space (sub_ws_from b s) =
  if b && all_ws s then false else last_is_space s.
Proof.
  revert b; induction s as [|c s IH]; intros b.
  - simpl. now destruct b.
  - cbn [sub_ws_from all_ws]. destruct (isspace c) eqn:Ec.
    + rewrite andb_true_l. destruct b.
      * rewrite IH. simpl. destruct (all_ws s) eqn:Ea; [reflexivity|].
        symmetry. apply last_is_space_cons. intros ->. discriminate.
      * rewrite andb_false_l.
        destruct (all_ws s) eqn:Ea.
        -- rewrite (proj2 (sub_ws_from_empty s) Ea).
           destruct s as [|d s]; [simpl; now rewrite Ec|].
           rewrite (last_is_space_cons c) by discriminate.
           symmetry. apply all_ws_last; [exact Ea | discriminate].
        -- assert (Hne : sub_ws_from true s <> "").
           { intros E. apply sub_ws_from_empty in E. congruence. }
           rewrite last_is_space_cons by exact Hne.
           rewrite IH. simpl.
           symmetry. apply last_is_space_cons. intros ->. discriminate.
    + rewrite andb_false_l, andb_false_r.
      destruct s as [|d s]; [reflexivity|].
      rewrite !last_is_space_cons
        by (try apply sub_ws_from_nonempty; discriminate).
      now rewrite IH.
Qed.

End ScanFacts.

(** ** Claims about the normalizer *)

(** C5. [normalize] is total; absent or empty input gives the empty
    string; any text gives its lowercased form with every maximal run of
    whitespace replaced by one space ([collapse_runs], whose runs are
    shown maximal by [runs_concat], [runs_uniform], [runs_alternating]);
    nothing is trimmed: the result begins (ends) with whitespace exactly
    when the input does, and then with a single space, since the result
    is in collapsed form. *)
Theorem normalize_contract :
  normalize_dyn None = ""
  /\ normalize "" = ""
  /\ (forall s, normalize s = collapse_runs (lower s))
  /\ (forall s, head_is_space (normalize s) = head_is_space s)
  /\ (forall s, last_is_space (normalize s) = last_is_space s)
  /\ (forall s, collapsed (normalize s) = true).
Proof.
  repeat split; intros s; rewrite normalize_unfold; unfold sub_ws.
  - apply sub_ws_from_runs.
  - rewrite (proj1 (sub_ws_from_head _)). apply head_is_space_lower.
  - rewrite sub_ws_from_last. simpl. apply last_is_space_lower.
  - apply sub_ws_from_collapsed.
Qed.

(** C6. [normalize] is idempotent. *)
Theorem normalize_idempotent (x : string) :
  normalize (normalize x) = normalize x.
Proof.
  rewrite !normalize_unfold. unfold sub_ws.
  rewrite lower_sub_ws_from, lower_idem.
  apply sub_ws_from_fixed, sub_ws_from_collapsed.
Qed.

(** ** Claims about the filter stage *)

Section FilterFacts.

(** The three passes in the order the code runs them. *)
Lemma passes_iff (bad help kw : list string) (t : string) :
  (if any_in bad t then false
   else if negb (any_in help t) then false else any_in kw t) = true
  <-> (forall p, In p bad -> ~ Substring p t)
      /\ (exists s, In s help /\ Substring s t)
      /\ (exists k, In k kw /\ Substring k t).
Proof.
  rewrite <- any_in_false_iff, <- !any_in_iff.
  destruct (any_in bad t), (any_in help t), (any_in kw t); simpl;
    intuition congruence.
Qed.

Lemma insights_keyword_pass (t : string) :
  Insights.keyword_pass t = any_in Insights.KEYWORDS t.
Proof.
  unfold Insights.keyword_pass. rewrite for_each_any_in.
  now destruct (any_in Insights.KEYWORDS t).
Qed.

Lemma insights_matches_keywords (post : Post) :
  Insights.matches_keywords post =
  let t := post_text post in
  if any_in Insights.BAD_PHRASES t then false
  else if negb (any_in Insights.HELP_SIGNALS t) then false
       else any_in Insights.KEYWORDS t.
Proof.
  unfold Insights.matches_keywords, post_text. cbv zeta.
  rewrite !for_each_any_in, insights_keyword_pass.
  fold (post_text post).
  destruct (any_in Insights.BAD_PHRASES (post_text post)); [reflexivity|].
  now destruct (any_in Insights.HELP_SIGNALS (post_text post)).
Qed.

End FilterFacts.

(** C1. [matches_keywords] accepts a post exactly when its normalized
    text (title, one space, selftext) has no bad phrase, has a help
    signal and has a keyword, each as a substring; a bad phrase rejects
    whatever else the text holds.  Stated for both files, each with its
    own three lists. *)
Theorem matches_keywords_iff (post : Post) :
  post_text post = normalize (title post ++ " " ++ selftext post)
  /\ (Insights.matches_keywords post = true <->
      (forall p, In p Insights.BAD_PHRASES -> ~ Substring p (post_text post))
      /\ (exists s, In s Insights.HELP_SIGNALS /\ Substring s (post_text post))
      /\ (exists k, In k Insights.KEYWORDS /\ Substring k (post_text post)))
  /\ (Scraper.matches_keywords post = true <->
      (forall p, In p Scraper.BAD_PHRASES -> ~ Substring p (post_text post))
      /\ (exists s, In s Scraper.HELP_SIGNALS /\ Substring s (post_text post))
      /\ (exists k, In k Scraper.KEYWORDS /\ Substring k (post_text post)))
  /\ ((exists p, In p Insights.BAD_PHRASES /\ Substring p (post_text post)) ->
      Insights.matches_keywords post = false)
  /\ ((exists p, In p Scraper.BAD_PHRASES /\ Substring p (post_text post)) ->
      Scraper.matches_keywords post = false).
Proof.
  split; [reflexivity|]. split; [|split; [|split]].
  - rewrite insights_matches_keywords. apply passes_iff.
  - apply passes_iff.
  - intros H. apply any_in_iff in H.
    rewrite insights_matches_keywords. cbv zeta. now rewrite H.
  - intros H. apply any_in_iff in H.
    unfold Scraper.matches_keywords. fold (post_text post). cbv zeta.
    now rewrite H.
Qed.

Lemma matches_keywords_iff_witness :
  Insights.matches_keywords showcase_post = false
  /\ Scraper.matches_keywords showcase_post = false.
Proof.
  destruct (matches_keywords_iff showcase_post) as (_ & _ & _ & Hi & Hs).
  split; [apply Hi | apply Hs]; exists "i made";
    (split; [simpl; tauto | exists "", " an arduino robot, help needed with wiring "; reflexivity]).
Defined.

(** ** Claims about the theme stage *)

Section ThemeFacts.

Lemma insights_assign_theme (post : Post) :
  Insights.assign_theme post =
  let t := post_text post in
  if any_in POWER_GROUP t then theme_label WiringAndPower
  else if any_in COMM_GROUP t then theme_label Communication
  else if any_in Insights.ANALOG_GROUP t then theme_label AnalogAndSensors
  else if any_in BUILD_GROUP t then theme_label BuildCompileErrors
  else theme_label GeneralBeginnerHelp.
Proof. reflexivity. Qed.

Lemma scraper_assign_theme (post : Post) :
  Scraper.assign_theme post =
  let t := post_text post in
  if any_in POWER_GROUP t then theme_label WiringAndPower
  else if any_in COMM_GROUP t then theme_label Communication
  else if any_in BUILD_GROUP t then theme_label BuildCompileErrors
  else if any_in Scraper.ANALOG_GROUP t then theme_label AnalogAndSensors
  else theme_label GeneralBeginnerHelp.
Proof. reflexivity. Qed.

Lemma theme_label_inj (a b : Theme) : theme_label a = theme_label b -> a = b.
Proof. destruct a, b; simpl; intros H; try reflexivity; discriminate H. Qed.

Lemma any_in_member (k : string) (ks : list string) (t : string) :
  In k ks -> Substring k t -> any_in ks t = true.
Proof. intros Hin Hk. apply any_in_iff. eauto. Qed.

Lemma any_in_app (ks ks' : list string) (t : string) :
  any_in (ks ++ ks') t = any_in ks t || any_in ks' t.
Proof. apply existsb_app. Qed.

(** The narrower analog group is part of the broader one. *)
Lemma scraper_analog_incl (t : string) :
  any_in Insights.ANALOG_GROUP t = false ->
  any_in Scraper.ANALOG_GROUP t = false.
Proof.
  unfold any_in. simpl. rewrite !orb_false_r.
  intros H. repeat (apply orb_false_iff in H as [? H]).
  repeat (apply orb_false_iff; split); assumption.
Qed.

End ThemeFacts.

(** C2 (as the code has it).  In [backend/insights/unwrap.py] the
    analog/sensor group comes before the build/flash-error group: a
    post with a member of each and no power or protocol word is labelled
    Analog & Sensors.  [backend/scraper/unwrap.py] has the two groups
    the other way round and labels the same post Build / Compile
    Errors. *)
Theorem analog_before_build_insights (post : Post) :
  (exists k, In k Insights.ANALOG_GROUP /\ Substring k (post_text post)) ->
  (exists k, In k BUILD_GROUP /\ Substring k (post_text post)) ->
  (forall k, In k POWER_GROUP -> ~ Substring k (post_text post)) ->
  (forall k, In k COMM_GROUP -> ~ Substring k (post_text post)) ->
  Insights.assign_theme post = theme_label AnalogAndSensors
  /\ Scraper.assign_theme post = theme_label BuildCompileErrors.
Proof.
  intros Ha Hb Hp Hc.
  apply any_in_iff in Ha, Hb. apply any_in_false_iff in Hp, Hc.
  rewrite insights_assign_theme, scraper_assign_theme. cbv zeta.
  now rewrite Hp, Hc, Ha, Hb.
Qed.

Lemma analog_before_build_insights_witness :
  Insights.assign_theme sensor_error_post = theme_label AnalogAndSensors
  /\ Scraper.assign_theme sensor_error_post = theme_label BuildCompileErrors.
Proof.
  apply (analog_before_build_insights sensor_error_post).
  - exists "sensor". split; [simpl; tauto|].
    exists "", " error on boot reading fails". reflexivity.
  - exists "error". split; [simpl; tauto|].
    exists "sensor ", " on boot reading fails". reflexivity.
  - apply any_in_false_iff. reflexivity.
  - apply any_in_false_iff. reflexivity.
Defined.

(** C2 as stated fails on [backend/scraper/unwrap.py]: there a post
    with "sensor" and "error" and no power or protocol word is labelled
    Build / Compile Errors. *)
Lemma analog_before_build_scraper_fails :
  ~ (forall post : Post,
       (exists k, In k Scraper.ANALOG_GROUP /\ Substring k (post_text post)) ->
       (exists k, In k BUILD_GROUP /\ Substring k (post_text post)) ->
       (forall k, In k POWER_GROUP -> ~ Substring k (post_text post)) ->
       (forall k, In k COMM_GROUP -> ~ Substring k (post_text post)) ->
       Scraper.assign_theme post = theme_label AnalogAndSensors).
Proof.
  intros H. specialize (H sensor_error_post).
  assert (E : Scraper.assign_theme sensor_error_post
              = theme_label AnalogAndSensors).
  { apply H.
    - exists "sensor". split; [simpl; tauto|].
      exists "", " error on boot reading fails". reflexivity.
    - exists "error". split; [simpl; tauto|].
      exists "sensor ", " on boot reading fails". reflexivity.
    - apply any_in_false_iff. reflexivity.
    - apply any_in_false_iff. reflexivity. }
  vm_compute in E. discriminate E.
Qed.

(** C3. A post whose normalized text has both "voltage" and "error" is
    labelled Wiring & Power: the power group is tested first (in both
    files). *)
Theorem voltage_error_is_wiring (post : Post) :
  Substring "voltage" (post_text post) ->
  Substring "error" (post_text post) ->
  Insights.assign_theme post = theme_label WiringAndPower
  /\ Scraper.assign_theme post = theme_label WiringAndPower.
Proof.
  intros Hv _.
  assert (H : any_in POWER_GROUP (post_text post) = true).
  { apply (any_in_member "voltage"); [simpl; tauto | exact Hv]. }
  rewrite insights_assign_theme, scraper_assign_theme. cbv zeta.
  now rewrite H.
Qed.

Lemma voltage_error_is_wiring_witness :
  Insights.assign_theme voltage_error_post = theme_label WiringAndPower
  /\ Scraper.assign_theme voltage_error_post = theme_label WiringAndPower.
Proof.
  apply (voltage_error_is_wiring voltage_error_post).
  - exists "", " error adc reads noise". reflexivity.
  - exists "voltage ", " adc reads noise". reflexivity.
Defined.

(** C4. [assign_theme] returns, for every post, exactly one of the five
    labels, and the fallback General Beginner Help when the normalized
    text holds no member of the four groups (in both files). *)
Theorem assign_theme_total (post : Post) :
  (exists! th, Insights.assign_theme post = theme_label th)
  /\ (exists! th, Scraper.assign_theme post = theme_label th)
  /\ ((forall k,
         In k (POWER_GROUP ++ COMM_GROUP ++ Insights.ANALOG_GROUP
               ++ BUILD_GROUP) ->
         ~ Substring k (post_text post)) ->
      Insights.assign_theme post = theme_label GeneralBeginnerHelp
      /\ Scraper.assign_theme post = theme_label GeneralBeginnerHelp).
Proof.
  rewrite insights_assign_theme, scraper_assign_theme. cbv zeta.
  split; [|split].
  - destruct (any_in POWER_GROUP _); [|destruct (any_in COMM_GROUP _);
      [|destruct (any_in Insights.ANALOG_GROUP _);
        [|destruct (any_in BUILD_GROUP _)]]];
      eexists; (split; [reflexivity | intros th; apply theme_label_inj]).
  - destruct (any_in POWER_GROUP _); [|destruct (any_in COMM_GROUP _);
      [|destruct (any_in BUILD_GROUP _);
        [|destruct (any_in Scraper.ANALOG_GROUP _)]]];
      eexists; (split; [reflexivity | intros th; apply theme_label_inj]).
  - intros H. apply any_in_false_iff in H.
    rewrite !any_in_app, !orb_false_iff in H.
    destruct H as (Hp & Hc & Ha & Hb).
    rewrite (scraper_analog_incl _ Ha), Hp, Hc, Ha, Hb. now split.
Qed.

Lemma assign_theme_total_witness :
  Insights.assign_theme fallback_post = theme_label GeneralBeginnerHelp
  /\ Scraper.assign_theme fallback_post = theme_label GeneralBeginnerHelp.
Proof.
  apply (assign_theme_total fallback_post).
  apply any_in_false_iff. reflexivity.
Defined.

(** C7. Keywords are matched as substrings, not as words: a text that
    holds "serialization" holds the keyword "serial", so the keyword
    pass over the fifteen keywords succeeds; in [serialization_post] no
    whitespace-separated token is a keyword at all, and the post is
    still accepted. *)
Theorem serialization_passes_keywords (post : Post) :
  Substring "serialization" (post_text post) ->
  List.length Insights.KEYWORDS = 15
  /\ In "serial" Insights.KEYWORDS
  /\ Substring "serial" (post_text post)
  /\ Insights.keyword_pass (post_text post) = true
  /\ (forall w, In w (words (post_text serialization_post)) ->
      ~ In w Insights.KEYWORDS)
  /\ Insights.matches_keywords serialization_post = true.
Proof.
  intros H.
  assert (Hs : Substring "serial" (post_text post)).
  { apply (Substring_trans _ "serialization"); [|exact H].
    exists "", "ization". reflexivity. }
  assert (Hin : In "serial" Insights.KEYWORDS) by (simpl; tauto).
  repeat split; try assumption.
  - rewrite insights_keyword_pass. now apply (any_in_member "serial").
  - intros w Hw Hk. vm_compute in Hw.
    repeat (destruct Hw as [<- | Hw];
            [vm_compute in Hk; intuition discriminate|]).
    exact Hw.
Qed.

Lemma serialization_passes_keywords_witness :
  Insights.keyword_pass (post_text serialization_post) = true.
Proof.
  apply (serialization_passes_keywords serialization_post).
  exists "help with json ", " ". reflexivity.
Defined.

(** C8. Both stages read only [title] and [selftext]: posts that agree
    on these two fields get the same verdict and the same theme,
    whatever their subreddit, score, comment count and url (in both
    files).  The functions being functions, a repeated call on one post
    gives the same result. *)
Theorem classifier_reads_title_and_selftext (p q : Post) :
  title p = title q ->
  selftext p = selftext q ->
  Insights.matches_keywords p = Insights.matches_keywords q
  /\ Insights.assign_theme p = Insights.assign_theme q
  /\ Scraper.matches_keywords p = Scraper.matches_keywords q
  /\ Scraper.assign_theme p = Scraper.assign_theme q.
Proof.
  intros Ht Hs.
  unfold Insights.matches_keywords, Insights.assign_theme,
    Scraper.matches_keywords, Scraper.assign_theme.
  rewrite Ht, Hs. repeat split.
Qed.

Lemma classifier_reads_title_and_selftext_witness :
  subreddit cant_post <> subreddit cant_post_elsewhere
  /\ score cant_post <> score cant_post_elsewhere
  /\ num_comments cant_post <> num_comments cant_post_elsewhere
  /\ url cant_post <> url cant_post_elsewhere
  /\ Insights.matches_keywords cant_post
     = Insights.matches_keywords cant_post_elsewhere
  /\ Insights.assign_theme cant_post
     = Insights.assign_theme cant_post_elsewhere.
Proof.
  repeat (split; [discriminate|]).
  pose proof (classifier_reads_title_and_selftext
                cant_post cant_post_elsewhere eq_refl eq_refl) as H.
  split; apply H.
Defined.

(** C9. The entry "voltage divider" of the analog/sensor group never
    decides: a text that holds it holds "voltage", a member of the
    power group, and the post is labelled Wiring & Power, not Analog &
    Sensors. *)
Theorem voltage_divider_is_wiring (post : Post) :
  Substring "voltage divider" (post_text post) ->
  In "voltage divider" Insights.ANALOG_GROUP
  /\ In "voltage" POWER_GROUP
  /\ Substring "voltage" (post_text post)
  /\ Insights.assign_theme post = theme_label WiringAndPower
  /\ Insights.assign_theme post <> theme_label AnalogAndSensors.
Proof.
  intros H.
  assert (Hv : Substring "voltage" (post_text post)).
  { apply (Substring_trans _ "voltage divider"); [|exact H].
    exists "", " divider". reflexivity. }
  assert (E : Insights.assign_theme post = theme_label WiringAndPower).
  { rewrite insights_assign_theme. cbv zeta.
    now rewrite (any_in_member "voltage" POWER_GROUP) by (simpl; tauto). }
  repeat split; try assumption; try (simpl; tauto).
  rewrite E. discriminate.
Qed.

Lemma voltage_divider_is_wiring_witness :
  Insights.assign_theme divider_post = theme_label WiringAndPower.
Proof.
  apply (voltage_divider_is_wiring divider_post).
  exists "", " reads wrong analog pin problem". reflexivity.
Defined.

(** C10. The entry "can" of the protocol group shadows the later
    groups: a post whose text holds "can" (as every text with "can't",
    "cant", "cannot" or "scan" does) is labelled Wiring & Power or
    Communication, never one of the other three (in both files). *)
Theorem can_shadows_later_groups (post : Post) :
  (exists w, In w ["can"; "can't"; "cant"; "cannot"; "scan"]
             /\ Substring w (post_text post)) ->
  Substring "can" (post_text post)
  /\ (Insights.assign_theme post = theme_label WiringAndPower
      \/ Insights.assign_theme post = theme_label Communication)
  /\ (Scraper.assign_theme post = theme_label WiringAndPower
      \/ Scraper.assign_theme post = theme_label Communication)
  /\ (forall th, In th [AnalogAndSensors; BuildCompileErrors;
                        GeneralBeginnerHelp] ->
      Insights.assign_theme post <> theme_label th
      /\ Scraper.assign_theme post <> theme_label th).
Proof.
  intros (w & Hw & Hsub).
  assert (Hc : Substring "can" (post_text post)).
  { apply (Substring_trans _ w); [|exact Hsub].
    simpl in Hw.
    destruct Hw as [<- | [<- | [<- | [<- | [<- | []]]]]].
    - exists "", "". reflexivity.
    - exists "", "'t". reflexivity.
    - exists "", "t". reflexivity.
    - exists "", "not". reflexivity.
    - exists "s", "". reflexivity. }
  assert (E : any_in COMM_GROUP (post_text post) = true).
  { apply (any_in_member "can"); [simpl; tauto | exact Hc]. }
  rewrite insights_assign_theme, scraper_assign_theme. cbv zeta.
  rewrite E.
  split; [exact Hc|].
  destruct (any_in POWER_GROUP (post_text post));
    (split; [auto | split; [auto|]]);
    intros th Hth; simpl in Hth;
    destruct Hth as [<- | [<- | [<- | []]]]; split; discriminate.
Qed.

Lemma can_shadows_later_groups_witness :
  Insights.assign_theme cant_post = theme_label Communication
  /\ Scraper.assign_theme cant_post = theme_label Communication.
Proof.
  assert (H : exists w, In w ["can"; "can't"; "cant"; "cannot"; "scan"]
                        /\ Substring w (post_text cant_post)).
  { exists "can't". split; [simpl; tauto|].
    exists "i ", " get my sensor sketch to compile ". reflexivity. }
  destruct (can_shadows_later_groups cant_post H) as (_ & Hi & Hs & _).
  split.
  - destruct Hi as [Hi | Hi]; [discriminate Hi | exact Hi].
  - destruct Hs as [Hs | Hs]; [discriminate Hs | exact Hs].
Defined.

(** ** The worked examples of the specification, run on the model *)

Section WorkedExamples.

Example normalize_case_and_blanks : normalize "A   B" = normalize "a b".
Proof. reflexivity. Qed.

Example normalize_keeps_outer_blanks :
  normalize (String "009" " Esp32" ++ String "010" (String "013" ""))
  = " esp32 ".
Proof. reflexivity. Qed.

Example keyword_without_help_signal :
  Insights.matches_keywords (titled "ESP32 project roundup") = false.
Proof. reflexivity. Qed.

Example help_signal_without_keyword :
  Insights.matches_keywords (titled "My code doesn't work, help") = false.
Proof. reflexivity. Qed.

Example help_signal_and_keyword :
  Insights.matches_keywords (titled "Help! My Arduino UART isn't working")
  = true.
Proof. reflexivity. Qed.

Example fallback_post_accepted :
  Insights.matches_keywords fallback_post = true
  /\ Scraper.matches_keywords fallback_post = true.
Proof. split; reflexivity. Qed.

(** The two keyword lists disagree on "gpio". *)
Example gpio_only_in_broader_list :
  Insights.matches_keywords (titled "Help with GPIO pins") = true
  /\ Scraper.matches_keywords (titled "Help with GPIO pins") = false.
Proof. split; reflexivity. Qed.

End WorkedExamples.

(** ** More on the normalizer *)

Section NormalizeMore.


Lemma lower_app (a b : string) : lower (a ++ b) = lower a ++ lower b.
Proof. induction a as [|c a IH]; simpl; [reflexivity | now rewrite IH]. Qed.


(** Starting inside a match only drops the blank a leading whitespace
    run would give. *)
Lemma sub_ws_from_flag (s : string) :
  sub_ws_from false s =
  (if head_is_space s then " " else "") ++ sub_ws_from true s.
Proof. destruct s as [|c s]; simpl; [reflexivity|]. now destruct (isspace c). Qed.

(** The scan of a concatenation: the second part is scanned in the
    state the first part ends in. *)
Lemma sub_ws_from_app (b : bool) (s s' : string) :
  s <> "" ->
  sub_ws_from b (s ++ s') = sub_ws_from b s ++ sub_ws_from (last_is_space s) s'.
Proof.
  revert b; induction s as [|c s IH]; intros b Hne; [congruence|].
  destruct s as [|d s].
  - simpl. destruct (isspace c); [destruct b|]; reflexivity.
  - rewrite last_is_space_cons by discriminate.
    change (String c (String d s) ++ s') with (String c (String d s ++ s')).
    cbn [sub_ws_from].
    destruct (isspace c); [destruct b|]; rewrite IH by discriminate;
      reflexivity.
Qed.

Lemma collapsed_tail (c : ascii) (s : string) :
  collapsed (String c s) = true -> collapsed s = true.
Proof. simpl. intros H. now apply andb_true_iff in H. Qed.

(** A collapsed text that ends in whitespace ends in a space. *)
Lemma collapsed_last_space (s : string) :
  collapsed s = true -> last_is_space s = true -> exists r, s = r ++ " ".
Proof.
  induction s as [|c s IH]; [discriminate|].
  intros Hc Hl. destruct s as [|d s].
  - simpl in Hc, Hl. rewrite Hl in Hc.
    rewrite !andb_true_r in Hc. apply Ascii.eqb_eq in Hc. subst c.
    now exists "".
  - rewrite last_is_space_cons in Hl by discriminate.
    destruct (IH (collapsed_tail _ _ Hc) Hl) as [r Hr].
    exists (String c r). simpl. now rewrite <- Hr.
Qed.

Lemma string_app_empty_r (s : string) : s ++ "" = s.
Proof. induction s as [|c s IH]; simpl; [reflexivity | now rewrite IH]. Qed.

(** Scanning a normalized text from inside a match drops its leading
    blank, if any, and nothing else. *)
Lemma sub_ws_from_true_normalize (b : string) :
  sub_ws_from true (normalize b) = sub_ws_from true (lower b).
Proof.
  rewrite normalize_unfold. unfold sub_ws.
  rewrite (sub_ws_from_flag (lower b)).
  assert (Hx : sub_ws_from true (sub_ws_from true (lower b))
               = sub_ws_from true (lower b)).
  { apply sub_ws_from_fixed; [apply sub_ws_from_collapsed|].
    apply sub_ws_from_head. }
  destruct (head_is_space (lower b)); simpl; exact Hx.
Qed.

(** The text the classifier reads, from the two normalized fields. *)
Lemma post_text_split (post : Post) :
  post_text post =
  normalize (title post)
  ++ (if last_is_space (normalize (title post)) then "" else " ")
  ++ sub_ws_from true (normalize (selftext post)).
Proof.
  rewrite sub_ws_from_true_normalize.
  unfold post_text. rewrite !normalize_unfold. unfold sub_ws.
  rewrite !lower_app. simpl (lower " ").
  destruct (title post) as [|c a].
  - reflexivity.
  - rewrite sub_ws_from_app by discriminate.
    rewrite sub_ws_from_last. simpl (false && _).
    cbv iota.
    destruct (last_is_space (lower (String c a))); reflexivity.
Qed.

End NormalizeMore.


(** X2. The two steps of [normalize] commute: collapsing whitespace
    first and lowercasing afterwards gives the same text. *)
Theorem normalize_steps_commute (s : string) :
  normalize s = lower (sub_ws s).
Proof.
  rewrite normalize_unfold. unfold sub_ws. symmetry. apply lower_sub_ws_from.
Qed.

Lemma post_text_holds_fields (post : Post) :
  startswith (normalize (title post)) (post_text post) = true
  /\ Substring (normalize (title post)) (post_text post)
  /\ Substring (normalize (selftext post)) (post_text post).
Proof.
  rewrite post_text_split.
  set (na := normalize (title post)).
  set (sep := if last_is_space na then "" else " ").
  assert (Hpre : exists suf, na ++ sep ++ sub_ws_from true
                               (normalize (selftext post)) = na ++ suf)
    by now eexists.
  split; [now apply startswith_iff|].
  split; [destruct Hpre as [suf ->]; now exists "", suf|].
  rewrite sub_ws_from_true_normalize.
  rewrite (normalize_unfold (selftext post)). unfold sub_ws.
  rewrite (sub_ws_from_flag (lower (selftext post))).
  set (x := sub_ws_from true (lower (selftext post))).
  destruct (head_is_space (lower (selftext post))).
  - subst sep. destruct (last_is_space na) eqn:El.
    + destruct (collapsed_last_space na) as [r Hr]; [|exact El|].
      { subst na. rewrite normalize_unfold. apply sub_ws_from_collapsed. }
      rewrite Hr. exists r, "".
      now rewrite !string_app_empty_r, !string_app_assoc.
    + exists na, "". now rewrite !string_app_empty_r.
  - exists (na ++ sep), "".
    now rewrite !string_app_empty_r, !string_app_assoc.
Qed.

(** X3. The normalized title and the normalized body both occur, as
    they are, in the text the two stages read; the title at its
    start. *)
Theorem normalized_fields_occur (post : Post) :
  startswith (normalize (title post)) (post_text post) = true
  /\ Substring (normalize (title post)) (post_text post)
  /\ Substring (normalize (selftext post)) (post_text post).
Proof. exact (post_text_holds_fields post). Qed.

(** ** More on the filter stage *)

Section VariantFacts.

Lemma any_in_incl (ks ks' : list string) (t : string) :
  incl ks ks' -> any_in ks t = true -> any_in ks' t = true.
Proof.
  intros Hi H. apply any_in_iff in H as (k & Hk & Hs).
  apply any_in_iff. exists k. split; [now apply Hi | exact Hs].
Qed.

Lemma any_in_text_incl (ks : list string) (t t' : string) :
  Substring t t' -> any_in ks t = true -> any_in ks t' = true.
Proof.
  intros Ht H. apply any_in_iff in H as (k & Hk & Hs).
  apply any_in_iff. exists k. split; [exact Hk|].
  now apply (Substring_trans _ t).
Qed.

Lemma scraper_matches_keywords (post : Post) :
  Scraper.matches_keywords post =
  let t := post_text post in
  if any_in Scraper.BAD_PHRASES t then false
  else if negb (any_in Scraper.HELP_SIGNALS t) then false
       else any_in Scraper.KEYWORDS t.
Proof. reflexivity. Qed.

Lemma scraper_lists_incl :
  incl Scraper.BAD_PHRASES Insights.BAD_PHRASES
  /\ incl Scraper.HELP_SIGNALS Insights.HELP_SIGNALS
  /\ incl Scraper.KEYWORDS Insights.KEYWORDS.
Proof. repeat split; intros k Hk; simpl in *; intuition auto. Qed.

(** The bad phrases only the broader list has. *)
Lemma insights_bad_phrases (t : string) :
  any_in Insights.BAD_PHRASES t = true ->
  any_in Scraper.BAD_PHRASES t = true
  \/ any_in ["update to my"; "project update"; "my journey"] t = true.
Proof.
  intros H. apply any_in_iff in H as (k & Hk & Hs).
  simpl in Hk.
  destruct Hk as [<-|[<-|[<-|[<-|[<-|[<-|[<-|[<-|[]]]]]]]]];
    ((left; apply any_in_iff; eexists; split; [|exact Hs]; simpl; tauto)
     || (right; apply any_in_iff; eexists; split; [|exact Hs]; simpl; tauto)).
Qed.

(** Without a power word the entry "voltage divider" cannot match, so
    the two analog groups test the same. *)
Lemma analog_groups_agree (t : string) :
  any_in POWER_GROUP t = false ->
  any_in Insights.ANALOG_GROUP t = any_in Scraper.ANALOG_GROUP t.
Proof.
  intros Hp.
  assert (Hvd : contains "voltage divider" t = false).
  { destruct (contains "voltage divider" t) eqn:E; [|reflexivity].
    apply contains_iff in E.
    assert (Hv : Substring "voltage" t).
    { apply (Substring_trans _ "voltage divider"); [|exact E].
      exists "", " divider". reflexivity. }
    rewrite (any_in_member "voltage" POWER_GROUP t) in Hp;
      [discriminate | simpl; tauto | exact Hv]. }
  unfold any_in. simpl. rewrite Hvd. reflexivity.
Qed.

End VariantFacts.

(** X4. A bad phrase in the title alone, or in the body alone, rejects
    the post, whatever the other field holds (in both files, each with
    its own list). *)
Theorem bad_phrase_in_one_field_rejects (post : Post) (phrase : string) :
  Substring phrase (normalize (title post))
  \/ Substring phrase (normalize (selftext post)) ->
  (In phrase Insights.BAD_PHRASES -> Insights.matches_keywords post = false)
  /\ (In phrase Scraper.BAD_PHRASES -> Scraper.matches_keywords post = false).
Proof.
  intros H.
  assert (Ht : Substring phrase (post_text post)).
  { destruct (post_text_holds_fields post) as (_ & Ha & Hb).
    destruct H as [H | H]; eapply Substring_trans; eauto. }
  split; intros Hin.
  - rewrite insights_matches_keywords. cbv zeta.
    now rewrite (any_in_member phrase _ _ Hin Ht).
  - rewrite scraper_matches_keywords. cbv zeta.
    now rewrite (any_in_member phrase _ _ Hin Ht).
Qed.

Lemma bad_phrase_in_one_field_rejects_witness :
  Insights.matches_keywords showcase_post = false
  /\ Scraper.matches_keywords showcase_post = false.
Proof.
  assert (H : Substring "i made" (normalize (title showcase_post))
              \/ Substring "i made" (normalize (selftext showcase_post))).
  { left. exists "", " an arduino robot, help needed with wiring".
    reflexivity. }
  destruct (bad_phrase_in_one_field_rejects showcase_post "i made" H)
    as [Hi Hs].
  split; [apply Hi | apply Hs]; simpl; tauto.
Defined.

(** X5. Both stages see each field through [normalize] only: two posts
    whose titles normalize to the same text and whose bodies do get the
    same verdict and the same theme, so letter case and the amount and
    kind of whitespace never matter (in both files). *)
Theorem classifier_ignores_case_and_spacing (p q : Post) :
  normalize (title p) = normalize (title q) ->
  normalize (selftext p) = normalize (selftext q) ->
  post_text p = post_text q
  /\ Insights.matches_keywords p = Insights.matches_keywords q
  /\ Insights.assign_theme p = Insights.assign_theme q
  /\ Scraper.matches_keywords p = Scraper.matches_keywords q
  /\ Scraper.assign_theme p = Scraper.assign_theme q.
Proof.
  intros Ht Hs.
  assert (E : post_text p = post_text q)
    by (rewrite !post_text_split, Ht, Hs; reflexivity).
  split; [exact E|].
  rewrite !insights_matches_keywords, !insights_assign_theme,
    !scraper_matches_keywords, !scraper_assign_theme.
  rewrite E. repeat split.
Qed.

Lemma classifier_ignores_case_and_spacing_witness :
  title shouting_post <> title quiet_post
  /\ selftext shouting_post <> selftext quiet_post
  /\ Insights.matches_keywords shouting_post
     = Insights.matches_keywords quiet_post
  /\ Scraper.assign_theme shouting_post = Scraper.assign_theme quiet_post.
Proof.
  split; [discriminate|]. split; [discriminate|].
  pose proof (classifier_ignores_case_and_spacing
                shouting_post quiet_post eq_refl eq_refl) as H.
  split; apply H.
Defined.

(** X6. What the narrower filter accepts the broader one accepts too,
    unless the text holds one of the three bad phrases only the broader
    list has. *)
Theorem scraper_accepts_then_insights (post : Post) :
  Scraper.matches_keywords post = true ->
  Insights.matches_keywords post = true
  \/ exists phrase,
       In phrase ["update to my"; "project update"; "my journey"]
       /\ Substring phrase (post_text post).
Proof.
  rewrite scraper_matches_keywords, insights_matches_keywords. cbv zeta.
  destruct scraper_lists_incl as (_ & Hh & Hk).
  destruct (any_in Scraper.BAD_PHRASES (post_text post)) eqn:Eb;
    [discriminate|].
  destruct (any_in Scraper.HELP_SIGNALS (post_text post)) eqn:Eh;
    [|discriminate].
  cbn [negb]. intros Ek.
  destruct (any_in Insights.BAD_PHRASES (post_text post)) eqn:Ei.
  - right. apply insights_bad_phrases in Ei as [Ei | Ei]; [congruence|].
    now apply any_in_iff.
  - left. rewrite (any_in_incl _ _ _ Hh Eh). cbn [negb].
    exact (any_in_incl _ _ _ Hk Ek).
Qed.

Lemma scraper_accepts_then_insights_witness :
  Insights.matches_keywords fallback_post = true.
Proof.
  destruct (scraper_accepts_then_insights fallback_post eq_refl)
    as [H | (phrase & Hin & Hs)]; [exact H|].
  exfalso. apply contains_iff in Hs. simpl in Hin.
  destruct Hin as [<-|[<-|[<-|[]]]]; discriminate Hs.
Defined.

(** X7. What the broader filter accepts the narrower one accepts as
    soon as the text holds a help signal and a keyword of the narrower
    lists. *)
Theorem insights_accepts_then_scraper (post : Post) :
  Insights.matches_keywords post = true ->
  (exists s, In s Scraper.HELP_SIGNALS /\ Substring s (post_text post)) ->
  (exists k, In k Scraper.KEYWORDS /\ Substring k (post_text post)) ->
  Scraper.matches_keywords post = true.
Proof.
  rewrite scraper_matches_keywords, insights_matches_keywords. cbv zeta.
  destruct scraper_lists_incl as (Hb & _ & _).
  intros Hi Hs Hk. apply any_in_iff in Hs, Hk.
  destruct (any_in Scraper.BAD_PHRASES (post_text post)) eqn:Eb.
  - rewrite (any_in_incl _ _ _ Hb Eb) in Hi. discriminate.
  - now rewrite Hs, Hk.
Qed.

Lemma insights_accepts_then_scraper_witness :
  Scraper.matches_keywords fallback_post = true.
Proof.
  apply (insights_accepts_then_scraper fallback_post eq_refl).
  - exists "help". split; [simpl; tauto|].
    exists "", ", my microcontroller project has an issue, beginner here ".
    reflexivity.
  - exists "microcontroller". split; [simpl; tauto|].
    exists "help, my ", " project has an issue, beginner here ".
    reflexivity.
Defined.

(** ** More on the theme stage *)

(** X8. The two [assign_theme] give the same label for every post but
    one kind: where the broader file says Analog & Sensors and the
    narrower one Build / Compile Errors, and then the text holds both an
    analog/sensor word and a build/flash-error word. *)
Theorem assign_theme_variants (post : Post) :
  Insights.assign_theme post = Scraper.assign_theme post
  \/ (Insights.assign_theme post = theme_label AnalogAndSensors
      /\ Scraper.assign_theme post = theme_label BuildCompileErrors
      /\ (exists k, In k Scraper.ANALOG_GROUP
                    /\ Substring k (post_text post))
      /\ (exists k, In k BUILD_GROUP /\ Substring k (post_text post))).
Proof.
  rewrite insights_assign_theme, scraper_assign_theme. cbv zeta.
  destruct (any_in POWER_GROUP (post_text post)) eqn:Ep; [now left|].
  rewrite (analog_groups_agree _ Ep).
  destruct (any_in COMM_GROUP (post_text post)); [now left|].
  destruct (any_in Scraper.ANALOG_GROUP (post_text post)) eqn:Ea,
           (any_in BUILD_GROUP (post_text post)) eqn:Eb;
    try (now left).
  right. repeat split; try reflexivity; now apply any_in_iff.
Qed.

(** X9. The fallback label is given exactly to the posts whose text
    holds no member of any of the four groups (in both files): a post
    with any group word never gets General Beginner Help. *)
Theorem general_help_iff_no_group_word (post : Post) :
  (Insights.assign_theme post = theme_label GeneralBeginnerHelp <->
   forall k, In k (POWER_GROUP ++ COMM_GROUP ++ Insights.ANALOG_GROUP
                   ++ BUILD_GROUP) ->
             ~ Substring k (post_text post))
  /\ (Scraper.assign_theme post = theme_label GeneralBeginnerHelp <->
      forall k, In k (POWER_GROUP ++ COMM_GROUP ++ Scraper.ANALOG_GROUP
                      ++ BUILD_GROUP) ->
                ~ Substring k (post_text post)).
Proof.
  rewrite insights_assign_theme, scraper_assign_theme. cbv zeta.
  rewrite <- !any_in_false_iff, !any_in_app, !orb_false_iff.
  destruct (any_in POWER_GROUP (post_text post)),
           (any_in COMM_GROUP (post_text post)),
           (any_in Insights.ANALOG_GROUP (post_text post)),
           (any_in Scraper.ANALOG_GROUP (post_text post)),
           (any_in BUILD_GROUP (post_text post));
    cbn [theme_label]; split; split; intros H;
    try discriminate H; try reflexivity; try tauto;
    repeat match goal with
           | H : _ /\ _ |- _ => destruct H
           end; try discriminate.
Qed.

Lemma general_help_iff_no_group_word_witness :
  Insights.assign_theme fallback_post = theme_label GeneralBeginnerHelp
  /\ Scraper.assign_theme fallback_post = theme_label GeneralBeginnerHelp.
Proof.
  destruct (general_help_iff_no_group_word fallback_post) as [Hi Hs].
  split; [apply Hi | apply Hs]; apply any_in_false_iff; reflexivity.
Defined.

(** ** The scraper run *)

Section RunFacts.

Import Main.

Variable new_posts : string -> nat -> list Submission.
Variable DB : Type.
Variable upsert : DB -> string -> dict -> string -> DB * option string.

Lemma handle_step (sub_name : string) (st : DB * list event)
      (submission : Submission) :
  handle DB upsert sub_name st submission =
  if Scraper.matches_keywords (to_post sub_name submission)
  then store upsert st (to_post sub_name submission)
  else st.
Proof.
  unfold handle, store, report, post_data. cbv zeta.
  destruct (Scraper.matches_keywords (to_post sub_name submission));
    [|reflexivity].
  destruct st as [db log]. cbn [fst snd].
  now destruct (upsert db "reddit_posts" _ "url") as [db' [e|]].
Qed.

Lemma scrape_sub_steps (sub_name : string) (xs : list Submission)
      (st : DB * list event) :
  fold_left (handle DB upsert sub_name) xs st =
  fold_left (store upsert)
            (filter Scraper.matches_keywords (map (to_post sub_name) xs)) st.
Proof.
  revert st; induction xs as [|x xs IH]; intros st; [reflexivity|].
  cbn [fold_left map filter]. rewrite handle_step.
  destruct (Scraper.matches_keywords (to_post sub_name x)); apply IH.
Qed.

Lemma filter_flat_map {A B : Type} (f : B -> bool) (g : A -> list B)
      (l : list A) :
  filter f (flat_map g l) = flat_map (fun a => filter f (g a)) l.
Proof.
  induction l as [|a l IH]; [reflexivity|].
  cbn [flat_map]. now rewrite filter_app, IH.
Qed.

Lemma run_steps (subs : list string) (st : DB * list event) :
  fold_left (scrape_sub new_posts DB upsert) subs st =
  fold_left (store upsert)
    (filter Scraper.matches_keywords
       (flat_map (fun sub_name =>
                    map (to_post sub_name) (new_posts sub_name 50)) subs))
    st.
Proof.
  revert st; induction subs as [|sub_name subs IH]; intros st; [reflexivity|].
  cbn [fold_left flat_map]. rewrite filter_app, fold_left_app, IH.
  unfold scrape_sub. now rewrite scrape_sub_steps.
Qed.

Lemma upserted_app (l l' : list event) :
  upserted (l ++ l') = (upserted l ++ upserted l')%list.
Proof.
  induction l as [|[line|t r k] l IH]; cbn [upserted app];
    [reflexivity | exact IH | now rewrite IH].
Qed.

Lemma printed_app (l l' : list event) :
  printed (l ++ l') = (printed l ++ printed l')%list.
Proof.
  induction l as [|[line|t r k] l IH]; cbn [printed app];
    [reflexivity | now rewrite IH | exact IH].
Qed.

Lemma steps_upserted (posts : list Post) (st : DB * list event) :
  upserted (snd (fold_left (store upsert) posts st)) =
  (upserted (snd st) ++ map post_data posts)%list.
Proof.
  revert st; induction posts as [|p posts IH]; intros st.
  - simpl. now rewrite app_nil_r.
  - cbn [fold_left map]. rewrite IH. unfold store. cbn [snd].
    rewrite upserted_app. cbn [upserted]. now rewrite <- app_assoc.
Qed.

Lemma steps_db (posts : list Post) (st : DB * list event) :
  fst (fold_left (store upsert) posts st) =
  fold_left (fun db record => fst (upsert db "reddit_posts" record "url"))
            (map post_data posts) (fst st).
Proof.
  revert st; induction posts as [|p posts IH]; intros st; [reflexivity|].
  cbn [fold_left map]. now rewrite IH.
Qed.

Lemma steps_printed_ok (posts : list Post) (st : DB * list event) :
  (forall db table record key, snd (upsert db table record key) = None) ->
  printed (snd (fold_left (store upsert) posts st)) =
  (printed (snd st) ++ map (fun p => report p None) posts)%list.
Proof.
  intros Hok. revert st; induction posts as [|p posts IH]; intros st.
  - simpl. now rewrite app_nil_r.
  - cbn [fold_left map]. rewrite IH. unfold store. cbn [snd].
    rewrite printed_app, Hok. cbn [printed]. now rewrite <- app_assoc.
Qed.

Lemma run_scraper_steps (db : DB) :
  run_scraper new_posts DB upsert db =
  fold_left (store upsert) (filter Scraper.matches_keywords (candidates new_posts))
            (db, [Print "--- Starting scrape on arduino, esp32, embedded, stm32 ---"]).
Proof. unfold run_scraper, candidates. cbv zeta. now rewrite run_steps. Qed.

(** The records of one run: of the posts built from the feed, those
    the filter accepts, in feed order, each with its theme; what the
    database answers plays no part. *)
Lemma run_scraper_upserted (db : DB) :
  upserted (snd (run_scraper new_posts DB upsert db)) =
  map post_data (filter Scraper.matches_keywords (candidates new_posts)).
Proof. rewrite run_scraper_steps, steps_upserted. reflexivity. Qed.

Lemma run_scraper_db (db : DB) :
  fst (run_scraper new_posts DB upsert db) =
  fold_left (fun d record => fst (upsert d "reddit_posts" record "url"))
            (upserted (snd (run_scraper new_posts DB upsert db))) db.
Proof. rewrite run_scraper_upserted, run_scraper_steps, steps_db. reflexivity. Qed.

Lemma run_scraper_printed_ok (db : DB) :
  (forall d table record key, snd (upsert d table record key) = None) ->
  printed (snd (run_scraper new_posts DB upsert db)) =
  "--- Starting scrape on arduino, esp32, embedded, stm32 ---"
  :: map (fun p => "Saved [" ++ Scraper.assign_theme p ++ "]: "
                   ++ take 50 (title p) ++ "...")
         (filter Scraper.matches_keywords (candidates new_posts)).
Proof.
  intros Hok. rewrite run_scraper_steps, steps_printed_ok by exact Hok.
  reflexivity.
Qed.

End RunFacts.

(** X10. One run hands to the database, in feed order, exactly the
    posts of the feed that the filter accepts, each as its six fields
    plus its theme; this holds whatever the database answers, so a
    failed upsert does not stop or change what follows. *)
Theorem run_scraper_sends_accepted_posts
        (new_posts : string -> nat -> list Main.Submission) (DB : Type)
        (upsert : DB -> string -> Main.dict -> string -> DB * option string)
        (db : DB) :
  Main.upserted (snd (Main.run_scraper new_posts DB upsert db)) =
  map Main.post_data
      (filter Scraper.matches_keywords (Main.candidates new_posts))
  /\ Main.upserted (snd (Main.main new_posts DB upsert db)) =
     Main.upserted (snd (Main.run_scraper new_posts DB upsert db)).
Proof.
  split; [apply run_scraper_upserted|].
  unfold Main.main.
  destruct (Main.run_scraper new_posts DB upsert db) as [db' log].
  cbn [snd]. rewrite upserted_app. simpl. now rewrite app_nil_r.
Qed.

Lemma scraper_theme_is_label (post : Post) :
  exists th, Scraper.assign_theme post = theme_label th.
Proof.
  rewrite scraper_assign_theme. cbv zeta.
  destruct (any_in POWER_GROUP (post_text post)); [eexists; reflexivity|].
  destruct (any_in COMM_GROUP (post_text post)); [eexists; reflexivity|].
  destruct (any_in BUILD_GROUP (post_text post)); [eexists; reflexivity|].
  destruct (any_in Scraper.ANALOG_GROUP (post_text post));
    eexists; reflexivity.
Qed.

(** X11. Every record a run stores is a help request as the filter
    defines it: it has the seven fields in order, a subreddit among the
    four targets, a url under https://reddit.com, one of the five
    themes, and a text with no bad phrase, a help signal and a
    keyword. *)
Theorem stored_records_are_help_requests
        (new_posts : string -> nat -> list Main.Submission) (DB : Type)
        (upsert : DB -> string -> Main.dict -> string -> DB * option string)
        (db : DB) :
  Forall
    (fun record =>
       exists post th,
         record = (Main.asdict post
                   ++ [("theme", Main.VStr (theme_label th))])%list
         /\ Scraper.assign_theme post = theme_label th
         /\ In (subreddit post) Main.target_subs
         /\ startswith "https://reddit.com" (url post) = true
         /\ (forall p, In p Scraper.BAD_PHRASES ->
                       ~ Substring p (post_text post))
         /\ (exists s, In s Scraper.HELP_SIGNALS
                       /\ Substring s (post_text post))
         /\ (exists k, In k Scraper.KEYWORDS
                       /\ Substring k (post_text post)))
    (Main.upserted (snd (Main.run_scraper new_posts DB upsert db))).
Proof.
  rewrite run_scraper_upserted. apply Forall_forall.
  intros record Hin. apply in_map_iff in Hin as (post & <- & Hin).
  apply filter_In in Hin as [Hc Hm].
  unfold Main.candidates in Hc.
  apply in_flat_map in Hc as (sub_name & Hsub & Hc).
  apply in_map_iff in Hc as (x & <- & _).
  destruct (scraper_theme_is_label (Main.to_post sub_name x)) as [th Hth].
  exists (Main.to_post sub_name x), th.
  split; [unfold Main.post_data; rewrite Hth; reflexivity|].
  split; [exact Hth|]. split; [exact Hsub|]. split; [reflexivity|].
  rewrite scraper_matches_keywords in Hm. now apply passes_iff in Hm.
Qed.

(** X12. The database ends a run in the state reached by applying the
    upserts one after the other, in the order sent, each to the state
    the one before left, all on table reddit_posts with conflict column
    url. *)
Theorem run_scraper_threads_database
        (new_posts : string -> nat -> list Main.Submission) (DB : Type)
        (upsert : DB -> string -> Main.dict -> string -> DB * option string)
        (db : DB) :
  fst (Main.run_scraper new_posts DB upsert db) =
  fold_left (fun d record => fst (upsert d "reddit_posts" record "url"))
            (map Main.post_data
                 (filter Scraper.matches_keywords
                         (Main.candidates new_posts)))
            db.
Proof. rewrite run_scraper_db, run_scraper_upserted. reflexivity. Qed.

(** X13. When no upsert raises, a run prints the starting line and
    then one Saved line per accepted post, in order, with the theme and
    the first fifty characters of the title. *)
Theorem run_scraper_prints_saved_lines
        (new_posts : string -> nat -> list Main.Submission) (DB : Type)
        (upsert : DB -> string -> Main.dict -> string -> DB * option string)
        (db : DB) :
  (forall d table record key, snd (upsert d table record key) = None) ->
  Main.printed (snd (Main.run_scraper new_posts DB upsert db)) =
  "--- Starting scrape on arduino, esp32, embedded, stm32 ---"
  :: map (fun p => "Saved [" ++ Scraper.assign_theme p ++ "]: "
                   ++ Main.take 50 (title p) ++ "...")
         (filter Scraper.matches_keywords (Main.candidates new_posts)).
Proof. apply run_scraper_printed_ok. Qed.

Lemma run_scraper_prints_saved_lines_witness :
  Main.printed
    (snd (Main.run_scraper PipelineSamples.sample_feed (list Main.dict)
                           PipelineSamples.keep_all []))
  = ["--- Starting scrape on arduino, esp32, embedded, stm32 ---";
     "Saved [Communication]: Help! My Arduino UART isn't working...";
     "Saved [Wiring & Power]: ESP32 error..."].
Proof.
  rewrite (run_scraper_prints_saved_lines
             PipelineSamples.sample_feed (list Main.dict)
             PipelineSamples.keep_all []);
    [reflexivity | intros; reflexivity].
Defined.

Section RunBound.

Lemma filter_length_le {A : Type} (f : A -> bool) (l : list A) :
  List.length (filter f l) <= List.length l.
Proof.
  induction l as [|a l IH]; simpl; [lia|]. destruct (f a); simpl; lia.
Qed.

End RunBound.

(** X14. When the feed keeps to the limit it is asked for, one run
    makes at most 200 upserts: fifty posts at most for each of the four
    subreddits. *)
Theorem run_scraper_at_most_200_upserts
        (new_posts : string -> nat -> list Main.Submission) (DB : Type)
        (upsert : DB -> string -> Main.dict -> string -> DB * option string)
        (db : DB) :
  (forall sub_name limit,
      List.length (new_posts sub_name limit) <= limit) ->
  List.length (Main.upserted (snd (Main.run_scraper new_posts DB upsert db)))
  <= 200.
Proof.
  intros Hlim. rewrite run_scraper_upserted, length_map.
  eapply Nat.le_trans; [apply filter_length_le|].
  unfold Main.candidates, Main.target_subs. cbn [flat_map].
  rewrite !length_app, !length_map. cbn [List.length].
  pose proof (Hlim "arduino" 50). pose proof (Hlim "esp32" 50).
  pose proof (Hlim "embedded" 50). pose proof (Hlim "stm32" 50). lia.
Qed.

Lemma run_scraper_at_most_200_upserts_witness :
  List.length
    (Main.upserted
       (snd (Main.run_scraper PipelineSamples.sample_feed unit
                              PipelineSamples.down tt)))
  <= 200.
Proof.
  apply (run_scraper_at_most_200_upserts
           PipelineSamples.sample_feed unit PipelineSamples.down tt).
  intros sub_name limit. unfold PipelineSamples.sample_feed.
  destruct (String.eqb sub_name "arduino"); [|simpl; lia].
  rewrite length_firstn. lia.
Defined.

(** ** Loading posts from rows *)

Section LoaderFacts.

Import CsvLoad.

Variable py_int : string -> option Z.

Lemma load_loop_some (rows : list row) (acc posts : list Post) :
  load_loop py_int acc rows = Some posts <->
  exists ps, posts = (acc ++ ps)%list
             /\ Forall2 (fun r p => post_of_row py_int r = Some p) rows ps.
Proof.
  revert acc; induction rows as [|r rows IH]; intros acc; cbn [load_loop].
  - split.
    + intros [= <-]. exists []. split; [now rewrite app_nil_r | constructor].
    + intros (ps & -> & H). inversion H. now rewrite app_nil_r.
  - destruct (post_of_row py_int r) as [p|] eqn:E.
    + rewrite IH. split.
      * intros (ps & -> & H). exists (p :: ps).
        split; [now rewrite <- app_assoc | now constructor].
      * intros (ps & -> & H). inversion H as [|r0 p0 rows0 ps0 Hp Hrest]; subst.
        assert (p0 = p) by congruence. subst p0.
        exists ps0. split; [now rewrite <- app_assoc | exact Hrest].
    + split; [discriminate|].
      intros (ps & _ & H). inversion H; subst. congruence.
Qed.



End LoaderFacts.

(** X15. When loading succeeds there is one post per row, in row
    order, each built from its own row. *)
Theorem load_posts_one_per_row
        (py_int : string -> option Z) (rows : list CsvLoad.row)
        (posts : list Post) :
  CsvLoad.load_posts_from_csv py_int rows = Some posts ->
  List.length posts = List.length rows
  /\ Forall2 (fun r p => CsvLoad.post_of_row py_int r = Some p) rows posts.
Proof.
  unfold CsvLoad.load_posts_from_csv. intros H.
  apply load_loop_some in H as (ps & -> & H). cbn [app].
  split; [symmetry; eapply Forall2_length; exact H | exact H].
Qed.

Lemma load_posts_one_per_row_witness :
  exists posts,
    CsvLoad.load_posts_from_csv PipelineSamples.sample_int
      [PipelineSamples.full_row; PipelineSamples.bare_row] = Some posts
    /\ List.length posts = 2.
Proof.
  eexists. split; [reflexivity|].
  apply (load_posts_one_per_row PipelineSamples.sample_int
           [PipelineSamples.full_row; PipelineSamples.bare_row]).
  reflexivity.
Defined.



(** X17. A row with neither number column always loads, with score 0
    and num_comments 0, and a missing text column loads as the empty
    text. *)
Theorem load_row_defaults (py_int : string -> option Z) (r : CsvLoad.row) :
  CsvLoad.row_lookup "score" r = None ->
  CsvLoad.row_lookup "num_comments" r = None ->
  exists post,
    CsvLoad.post_of_row py_int r = Some post
    /\ score post = 0%Z /\ num_comments post = 0%Z
    /\ (CsvLoad.row_lookup "subreddit" r = None -> subreddit post = "")
    /\ (CsvLoad.row_lookup "title" r = None -> title post = "")
    /\ (CsvLoad.row_lookup "selftext" r = None -> selftext post = "")
    /\ (CsvLoad.row_lookup "url" r = None -> url post = "").
Proof.
  intros Hs Hn. unfold CsvLoad.post_of_row, CsvLoad.get_int, CsvLoad.get_text.
  cbv zeta. rewrite Hs, Hn. eexists. split; [reflexivity|]. cbn.
  repeat split; intros ->; reflexivity.
Qed.

Lemma load_row_defaults_witness :
  exists post,
    CsvLoad.post_of_row PipelineSamples.sample_int PipelineSamples.bare_row
    = Some post
    /\ score post = 0%Z /\ num_comments post = 0%Z
    /\ subreddit post = "" /\ url post = "".
Proof.
  destruct (load_row_defaults PipelineSamples.sample_int
              PipelineSamples.bare_row eq_refl eq_refl)
    as (post & E & Hs & Hn & Hsub & _ & _ & Hurl).
  exists post. repeat split; auto.
Defined.

(** X18. Only the six named columns are read: two rows that agree on
    them load alike, whatever else they hold. *)
Theorem load_row_reads_six_columns
        (py_int : string -> option Z) (r r' : CsvLoad.row) :
  (forall k, In k ["subreddit"; "title"; "selftext"; "score";
                   "num_comments"; "url"] ->
             CsvLoad.row_lookup k r = CsvLoad.row_lookup k r') ->
  CsvLoad.post_of_row py_int r = CsvLoad.post_of_row py_int r'.
Proof.
  intros H. unfold CsvLoad.post_of_row, CsvLoad.get_int, CsvLoad.get_text.
  cbv zeta.
  rewrite !(H "subreddit"), !(H "title"), !(H "selftext"), !(H "score"),
    !(H "num_comments"), !(H "url") by (simpl; tauto).
  reflexivity.
Qed.

Lemma load_row_reads_six_columns_witness :
  CsvLoad.post_of_row PipelineSamples.sample_int PipelineSamples.full_row
  = CsvLoad.post_of_row PipelineSamples.sample_int
      (("author", "someone else") :: PipelineSamples.full_row).
Proof.
  apply (load_row_reads_six_columns PipelineSamples.sample_int).
  intros k Hk. simpl in Hk.
  destruct Hk as [<-|[<-|[<-|[<-|[<-|[<-|[]]]]]]]; reflexivity.
Defined.
